(** * The FastAPI application object (applications.py)

    A shallow embedding of class [FastAPI]: its attributes as a record, its
    methods as computations in a state-and-exception monad over that record,
    and the handler chain that [build_middleware_stack] assembles as a tree of
    ASGI applications.  The theorems at the end settle the properties of the
    composition layer: chain shape, middleware order, the schema cache, the
    entry point and the auxiliary routes registered by [setup]. *)

From Stdlib Require Import ZArith.
From stdpp Require Import gmap strings list fin_maps.

Local Open Scope string_scope.
Local Open Scope list_scope.

(** ** Values *)

(** Python values of type [Any] that occur as option values, scope entries and
    document fields. *)
Inductive Any : Type :=
  | ANone
  | ABool (b : bool)
  | AInt (z : Z)
  | AStr (s : string).

(** [Dict[str, Any]]. *)
Abbreviation Dict := (gmap string Any).

(** A callable is known by its identity only. *)
Inductive Callable : Type := CallableRef (name : string).

(** Keys of the exception handler map: [Union[int, Type[Exception]]]. *)
Inductive HKey : Type :=
  | StatusCode (code : Z)
  | ExcType (name : string).

#[global] Instance HKey_eq_dec : EqDecision HKey := ltac:(solve_decision).

Definition HKey_encode (k : HKey) : Z + string :=
  match k with
  | StatusCode c => inl c
  | ExcType n => inr n
  end.

Definition HKey_decode (s : Z + string) : HKey :=
  match s with
  | inl c => StatusCode c
  | inr n => ExcType n
  end.

#[global] Instance HKey_countable : Countable HKey :=
  inj_countable' HKey_encode HKey_decode ltac:(by intros []).

Abbreviation Handlers := (gmap HKey Callable).

(** ** Truthiness

    The source tests several attributes with [if x:], [not x] and [x or d];
    [None], the empty string, the empty list and the empty dict are falsy. *)

Definition truthy_str (o : option string) : bool :=
  match o with
  | None => false
  | Some s => negb (String.eqb s EmptyString)
  end.

Definition truthy_dict (o : option Dict) : bool :=
  match o with
  | None => false
  | Some d => bool_decide (d ≠ ∅)
  end.

(** [x or []] *)
Definition or_list {A} (o : option (list A)) : list A :=
  match o with
  | None => []
  | Some l => l
  end.

(** [x or {}] *)
Definition or_handlers (o : option Handlers) : Handlers :=
  match o with
  | None => ∅
  | Some m => m
  end.

(** [s.startswith("/")] *)
Definition startswith_slash (s : string) : bool := String.prefix "/" s.

Arguments startswith_slash : simpl never.

(** ** Routes and middleware descriptors *)

(** The endpoints that [setup] registers are the four lambdas of its body;
    any other endpoint is a user callable. *)
Inductive Endpoint : Type :=
  | ServeOpenAPI
  | ServeSwaggerUI
  | ServeOAuth2Redirect
  | ServeReDoc
  | UserEndpoint (f : Callable).

Record Route : Type := mkRoute {
  path : string;
  endpoint : Endpoint;
  methods : option (list string);
  name : option string;
  include_in_schema : bool
}.

(** [routing.APIRouter]: the registry this class owns.  Only its list of
    routes is read or extended here. *)
Record APIRouter : Type := mkRouter {
  routes : list Route
}.

(** [Middleware(cls, **options)] *)
Record Middleware : Type := mkMiddleware {
  cls : string;
  options : Dict
}.

(** ** The handler chain

    [RouterRef] stands for the object [self.router]: the chain holds the
    reference, and the routes are looked up when a request is dispatched. *)
Inductive ASGIApp : Type :=
  | RouterRef
  | MiddlewareApp (middleware : Middleware) (app : ASGIApp)
  | ServerErrorMiddleware (app : ASGIApp) (debug : bool) (handler : Handlers).

(** ** The application object *)

(** An attribute that [__init__] assigns after its first read is [None] until
    the assignment: [middleware_stack] and [exception_handlers]. *)
Record FastAPI : Type := mkFastAPI {
  _debug : bool;
  state : Dict;
  router : APIRouter;
  openapi_schema : option Dict;
  openapi_version : string;
  openapi_url : option string;
  openapi_tags : option (list Dict);
  servers : option (list Dict);
  docs_url : option string;
  redoc_url : option string;
  swagger_ui_oauth2_redirect_url : option string;
  swagger_ui_init_oauth : option Dict;
  title : string;
  description : string;
  version : string;
  terms_of_service : option string;
  contact : option Dict;
  license_info : option Dict;
  openapi_prefix : string;
  root_path : string;
  root_path_in_servers : bool;
  swagger_ui_parameters : option Dict;
  extra : Dict;
  dependency_overrides : list (Callable * Callable);
  user_middleware : list Middleware;
  middleware_stack : option ASGIApp;
  exception_handlers : option Handlers
}.

Definition set_router (r : APIRouter) (a : FastAPI) : FastAPI :=
  mkFastAPI (_debug a) (state a) r (openapi_schema a) (openapi_version a)
    (openapi_url a) (openapi_tags a) (servers a) (docs_url a) (redoc_url a)
    (swagger_ui_oauth2_redirect_url a) (swagger_ui_init_oauth a) (title a)
    (description a) (version a) (terms_of_service a) (contact a)
    (license_info a) (openapi_prefix a) (root_path a) (root_path_in_servers a)
    (swagger_ui_parameters a) (extra a) (dependency_overrides a)
    (user_middleware a) (middleware_stack a) (exception_handlers a).

Definition set_openapi_schema (d : option Dict) (a : FastAPI) : FastAPI :=
  mkFastAPI (_debug a) (state a) (router a) d (openapi_version a)
    (openapi_url a) (openapi_tags a) (servers a) (docs_url a) (redoc_url a)
    (swagger_ui_oauth2_redirect_url a) (swagger_ui_init_oauth a) (title a)
    (description a) (version a) (terms_of_service a) (contact a)
    (license_info a) (openapi_prefix a) (root_path a) (root_path_in_servers a)
    (swagger_ui_parameters a) (extra a) (dependency_overrides a)
    (user_middleware a) (middleware_stack a) (exception_handlers a).

Definition set_user_middleware (l : list Middleware) (a : FastAPI) : FastAPI :=
  mkFastAPI (_debug a) (state a) (router a) (openapi_schema a)
    (openapi_version a) (openapi_url a) (openapi_tags a) (servers a)
    (docs_url a) (redoc_url a) (swagger_ui_oauth2_redirect_url a)
    (swagger_ui_init_oauth a) (title a) (description a) (version a)
    (terms_of_service a) (contact a) (license_info a) (openapi_prefix a)
    (root_path a) (root_path_in_servers a) (swagger_ui_parameters a) (extra a)
    (dependency_overrides a) l (middleware_stack a) (exception_handlers a).

Definition set_middleware_stack (s : option ASGIApp) (a : FastAPI) : FastAPI :=
  mkFastAPI (_debug a) (state a) (router a) (openapi_schema a)
    (openapi_version a) (openapi_url a) (openapi_tags a) (servers a)
    (docs_url a) (redoc_url a) (swagger_ui_oauth2_redirect_url a)
    (swagger_ui_init_oauth a) (title a) (description a) (version a)
    (terms_of_service a) (contact a) (license_info a) (openapi_prefix a)
    (root_path a) (root_path_in_servers a) (swagger_ui_parameters a) (extra a)
    (dependency_overrides a) (user_middleware a) s (exception_handlers a).

Definition set_exception_handlers (h : option Handlers) (a : FastAPI) : FastAPI :=
  mkFastAPI (_debug a) (state a) (router a) (openapi_schema a)
    (openapi_version a) (openapi_url a) (openapi_tags a) (servers a)
    (docs_url a) (redoc_url a) (swagger_ui_oauth2_redirect_url a)
    (swagger_ui_init_oauth a) (title a) (description a) (version a)
    (terms_of_service a) (contact a) (license_info a) (openapi_prefix a)
    (root_path a) (root_path_in_servers a) (swagger_ui_parameters a) (extra a)
    (dependency_overrides a) (user_middleware a) (middleware_stack a) h.

(** ** Methods as computations

    A method call either returns a value or raises; attribute writes made
    before the raise stay in the object. *)

Inductive Exn : Type :=
  | AttributeError (attr : string)
  | AssertionError (msg : string).

Inductive res (A : Type) : Type :=
  | Ok (a : A)
  | Raise (e : Exn).

Arguments Ok {A} a.
Arguments Raise {A} e.

Definition M (A : Type) : Type := FastAPI → res A * FastAPI.

Definition ret {A} (a : A) : M A := λ self, (Ok a, self).

Definition bind {A B} (c : M A) (k : A → M B) : M B :=
  λ self,
    match c self with
    | (Ok a, self') => k a self'
    | (Raise e, self') => (Raise e, self')
    end.

Definition raise {A} (e : Exn) : M A := λ self, (Raise e, self).

Definition modify (f : FastAPI → FastAPI) : M unit := λ self, (Ok tt, f self).

Definition read {A} (f : FastAPI → A) : M A := λ self, (Ok (f self), self).

(** Reading an attribute that no assignment has created yet. *)
Definition getattr {A} (attr : string) (f : FastAPI → option A) : M A :=
  λ self,
    match f self with
    | Some v => (Ok v, self)
    | None => (Raise (AttributeError attr), self)
    end.

(** [assert c, msg] *)
Definition assert (c : bool) (msg : string) : M unit :=
  if c then ret tt else raise (AssertionError msg).

Notation "'let!' x ':=' c1 'in' c2" := (bind c1 (λ x, c2))
  (at level 10, x name, c1 at level 100, c2 at level 200).
Notation "c1 '>>' c2" := (bind c1 (λ _, c2))
  (at level 100, c2 at level 200, right associativity).

(** [if c: body] *)
Definition when (c : bool) (body : M unit) : M unit :=
  if c then body else ret tt.

(** ** add_route *)

(** Modelled from the spec: the router's own [add_route], whose code is not
    in this file.  Registering adds one record to the registry; the record
    holds the arguments as this class hands them over, and what the router
    derives from them or refuses is not part of it. *)
Definition router_add_route (r : Route) (rt : APIRouter) : APIRouter :=
  mkRouter (routes rt ++ [r]).

Definition add_route (path : string) (route : Endpoint)
    (methods : option (list string)) (name : option string)
    (include_in_schema : bool) : M unit :=
  modify (λ self,
    set_router
      (router_add_route (mkRoute path route methods name include_in_schema)
         (router self))
      self).

(** ** setup *)

(** The string held by an attribute that has just tested truthy. *)
Definition str (o : option string) : string := default EmptyString o.

Definition setup : M unit :=
  (let! url := read openapi_url in
   when (truthy_str url)
     (assert (startswith_slash (str url)) "openapi_url should start with /" >>
      add_route (str url) ServeOpenAPI None None false)) >>
  (let! url := read openapi_url in
   let! docs := read docs_url in
   when (truthy_str url && truthy_str docs)
     (assert (startswith_slash (str docs)) "docs_url should start with /" >>
      add_route (str docs) ServeSwaggerUI None None false >>
      let! redirect := read swagger_ui_oauth2_redirect_url in
      when (truthy_str redirect)
        (assert (startswith_slash (str redirect))
           "swagger_ui_oauth2_redirect_url should start with /" >>
         add_route (str redirect) ServeOAuth2Redirect None None false))) >>
  (let! url := read openapi_url in
   let! redoc := read redoc_url in
   when (truthy_str url && truthy_str redoc)
     (assert (startswith_slash (str redoc)) "redoc_url should start with /" >>
      add_route (str redoc) ServeReDoc None None false)).

(** ** build_middleware_stack *)

(** One turn of the loop: [app = middleware.cls(app=app, **middleware.options)].
    The class is supplied by the user and its constructor is taken to return
    the layer; a constructor that raises is outside this model. *)
Definition wrap (app : ASGIApp) (middleware : Middleware) : ASGIApp :=
  MiddlewareApp middleware app.

Definition build_middleware_stack : M ASGIApp :=
  let! mws := read user_middleware in
  let app := fold_left wrap (rev mws) RouterRef in
  let! debug := read _debug in
  let! handler := getattr "exception_handlers" exception_handlers in
  ret (ServerErrorMiddleware app debug handler).




(** The chain with the front of the sequence outermost. *)
Definition nest (mws : list Middleware) : ASGIApp :=
  foldr MiddlewareApp RouterRef mws.

(** ** add_middleware *)

Definition add_middleware (middleware_class : string) (options : Dict) : M unit :=
  modify (λ self,
    set_user_middleware
      (mkMiddleware middleware_class options :: user_middleware self) self) >>
  let! stack := build_middleware_stack in
  modify (set_middleware_stack (Some stack)).

(** ** __init__ *)

(** The keyword arguments of the constructor that this class stores.  The
    remaining ones configure the router and are not read again here. *)
Record Kwargs : Type := mkKwargs {
  kw_debug : bool;
  kw_routes : option (list Route);
  kw_title : string;
  kw_description : string;
  kw_version : string;
  kw_openapi_url : option string;
  kw_openapi_tags : option (list Dict);
  kw_servers : option (list Dict);
  kw_docs_url : option string;
  kw_redoc_url : option string;
  kw_swagger_ui_oauth2_redirect_url : option string;
  kw_swagger_ui_init_oauth : option Dict;
  kw_middleware : option (list Middleware);
  kw_exception_handlers : option Handlers;
  kw_terms_of_service : option string;
  kw_contact : option Dict;
  kw_license_info : option Dict;
  kw_openapi_prefix : string;
  kw_root_path : string;
  kw_root_path_in_servers : bool;
  kw_swagger_ui_parameters : option Dict;
  kw_extra : Dict
}.

(** The defaults of the signature. *)
Definition default_kwargs : Kwargs :=
  mkKwargs false None "FastAPI" EmptyString "0.1.0" (Some "/openapi.json")
    None None (Some "/docs") (Some "/redoc") (Some "/docs/oauth2-redirect")
    None None None None None None EmptyString EmptyString true None ∅.

(** The object once the assignments up to [self.user_middleware] have run:
    [middleware_stack] and [exception_handlers] are still to be assigned. *)
Definition allocated (kw : Kwargs) : FastAPI :=
  mkFastAPI (kw_debug kw) ∅ (mkRouter (or_list (kw_routes kw))) None "3.1.0"
    (kw_openapi_url kw) (kw_openapi_tags kw) (kw_servers kw) (kw_docs_url kw)
    (kw_redoc_url kw) (kw_swagger_ui_oauth2_redirect_url kw)
    (kw_swagger_ui_init_oauth kw) (kw_title kw) (kw_description kw)
    (kw_version kw) (kw_terms_of_service kw) (kw_contact kw)
    (kw_license_info kw) (kw_openapi_prefix kw) (kw_root_path kw)
    (kw_root_path_in_servers kw) (kw_swagger_ui_parameters kw) (kw_extra kw)
    [] (or_list (kw_middleware kw)) None None.

(** The last three statements of the constructor, in the order of the source:
    the chain is built, then [exception_handlers] is assigned, then [setup]
    runs. *)
Definition __init__ (kw : Kwargs) : res unit * FastAPI :=
  (let! stack := build_middleware_stack in
   modify (set_middleware_stack (Some stack)) >>
   modify (set_exception_handlers (Some (or_handlers (kw_exception_handlers kw)))) >>
   setup) (allocated kw).

(** ** Requests, responses and failures *)

(** A failure raised while a request is handled: its kind, followed by the
    kinds it generalises to, most specific first. *)
Record Failure : Type := mkFailure {
  kinds : list HKey;
  detail : string
}.

Inductive Body : Type :=
  | JSONBody (content : option Dict)
  | HTMLBody (html : string)
  | TextBody (text : string).

Record Response : Type := mkResponse {
  status_code : Z;
  body : Body
}.

Definition JSONResponse (content : option Dict) : Response :=
  mkResponse 200 (JSONBody content).

Definition HTMLResponse (html : string) : Response :=
  mkResponse 200 (HTMLBody html).

Inductive Outcome : Type :=
  | Responded (r : Response)
  | Failed (f : Failure).

(** What a middleware does with a request before the rest of the chain sees
    it: pass a context on, or answer (or fail) on its own. *)
Inductive PreStep : Type :=
  | CallNext (scope : Dict)
  | Return (o : Outcome).

Inductive Event : Type :=
  | EvPre (m : Middleware)
  | EvPost (m : Middleware)
  | EvDispatch
  | EvReport (f : Failure).

(** The arguments of the call to [get_openapi]. *)
Record OpenAPIArgs : Type := mkOpenAPIArgs {
  arg_title : string;
  arg_version : string;
  arg_description : string;
  arg_routes : list Route;
  arg_tags : option (list Dict);
  arg_servers : option (list Dict);
  arg_terms_of_service : option string;
  arg_contact : option Dict;
  arg_license_info : option Dict;
  arg_openapi_prefix : string;
  arg_openapi_version : string;
  arg_separate_input_output_schemas : bool
}.

(** The imported functions and classes whose bodies are outside this class:
    the schema generator, the documentation renderers, the router's matching
    and the behaviour of user callables. *)
Record Collaborators : Type := mkCollaborators {
  get_openapi : OpenAPIArgs → Dict;
  get_swagger_ui_html :
    string → string → option string → option Dict → option Dict → string;
  get_swagger_ui_oauth2_redirect_html : string;
  get_redoc_html : string → string → string;
  route_match : list Route → Dict → option Route;
  no_match : Dict → Outcome;
  call_endpoint : Callable → Dict → Outcome;
  dispatch_pre : Middleware → Dict → PreStep;
  dispatch_post : Middleware → Outcome → Outcome;
  call_handler : Callable → Dict → Failure → Response
}.

(** Modelled from the spec: the catch-all kind, the last one that the lookup
    of the Exception Handler Map tries. *)
Definition catch_all : HKey := ExcType "Exception".

(** Modelled from the spec: the first of the kinds [ks], in order, that has
    an entry in the map. *)
Fixpoint first_handler (handler : Handlers) (ks : list HKey) : option Callable :=
  match ks with
  | [] => None
  | k :: ks' =>
      match handler !! k with
      | Some h => Some h
      | None => first_handler handler ks'
      end
  end.

(** Modelled from the spec: the lookup rule of the Exception Handler Map, whose
    code is in the error-boundary class.  The failure's own kind is tried
    first, then each kind it generalises to, then the catch-all kind; the
    first kind with an entry wins. *)
Definition lookup_handler (handler : Handlers) (f : Failure) : option Callable :=
  first_handler handler (kinds f ++ [catch_all]).

(** Modelled from the spec: the generic internal-error response of the error
    boundary.  It carries nothing of the failure. *)
Definition error_response : Response :=
  mkResponse 500 (TextBody "Internal Server Error").

(** Modelled from the spec: the diagnostic response of the error boundary,
    which exposes the detail of the failure. *)
Definition debug_response (f : Failure) : Response :=
  mkResponse 500 (TextBody (detail f)).

Section Serving.

Variable ext : Collaborators.

(** ** openapi *)

Definition openapi_args (self : FastAPI) : OpenAPIArgs :=
  mkOpenAPIArgs (title self) (version self) (description self)
    (routes (router self)) (openapi_tags self) (servers self)
    (terms_of_service self) (contact self) (license_info self)
    (openapi_prefix self) (openapi_version self) false.

Definition openapi : M (option Dict) :=
  (let! schema := read openapi_schema in
   when (negb (truthy_dict schema))
     (let! args := read openapi_args in
      modify (set_openapi_schema (Some (get_openapi ext args))))) >>
  read openapi_schema.

(** ** Dispatch through the chain *)

(** The four lambdas that [setup] registers, and user endpoints. *)
Definition call_route (route : Route) (scope : Dict) : M Outcome :=
  match endpoint route with
  | ServeOpenAPI =>
      let! schema := openapi in
      ret (Responded (JSONResponse schema))
  | ServeSwaggerUI =>
      let! self := read id in
      ret (Responded (HTMLResponse
        (get_swagger_ui_html ext
           (str (openapi_url self) +:+ root_path self)
           (title self +:+ " - Swagger UI")
           (swagger_ui_oauth2_redirect_url self)
           (swagger_ui_init_oauth self)
           (swagger_ui_parameters self))))
  | ServeOAuth2Redirect =>
      ret (Responded (HTMLResponse (get_swagger_ui_oauth2_redirect_html ext)))
  | ServeReDoc =>
      let! self := read id in
      ret (Responded (HTMLResponse
        (get_redoc_html ext
           (str (openapi_url self) +:+ root_path self)
           (title self +:+ " - ReDoc"))))
  | UserEndpoint f => ret (call_endpoint ext f scope)
  end.

(** The router is consulted when the request arrives: the routes are those of
    [self.router] at that moment. *)
Definition dispatch (scope : Dict) : M Outcome :=
  let! rt := read router in
  match route_match ext (routes rt) scope with
  | Some route => call_route route scope
  | None => ret (no_match ext scope)
  end.

(** Modelled from the spec: a middleware layer, whose class is supplied by the
    user.  Its pre-processing runs first ([EvPre]); unless it answers on its
    own, the downstream handler runs next, control comes back to the layer
    ([EvPost]) and the layer decides what to make of the outcome. *)
Definition middleware_layer (m : Middleware)
    (call_next : Dict → M (Outcome * list Event)) (scope : Dict)
    : M (Outcome * list Event) :=
  match dispatch_pre ext m scope with
  | Return o => ret (o, [EvPre m])
  | CallNext scope' =>
      let! r := call_next scope' in
      ret (dispatch_post ext m r.1, EvPre m :: r.2 ++ [EvPost m])
  end.

(** Modelled from the spec: the error-boundary layer, whose class is not in
    this file.  A failure of the inner chain with an entry in the map is
    answered by that handler; any other failure is answered with the
    diagnostic response when [debug] is set and with the generic response
    otherwise, and is reported to the host ([EvReport]). *)
Definition error_boundary (debug : bool) (handler : Handlers) (scope : Dict)
    (r : Outcome * list Event) : Outcome * list Event :=
  match r.1 with
  | Responded resp => r
  | Failed f =>
      match lookup_handler handler f with
      | Some h => (Responded (call_handler ext h scope f), r.2)
      | None =>
          (Responded (if debug then debug_response f else error_response),
           r.2 ++ [EvReport f])
      end
  end.

Fixpoint run (app : ASGIApp) (scope : Dict) : M (Outcome * list Event) :=
  match app with
  | RouterRef =>
      let! o := dispatch scope in
      ret (o, [EvDispatch])
  | MiddlewareApp m inner => middleware_layer m (run inner) scope
  | ServerErrorMiddleware inner debug handler =>
      let! r := run inner scope in
      ret (error_boundary debug handler scope r)
  end.

(** ** __call__ *)

(** What one call of the entry point leaves behind: the scope as written, the
    outcome of the chain and the events in the order they happened. *)
Record Served : Type := mkServed {
  served_scope : Dict;
  served_outcome : Outcome;
  served_trace : list Event
}.

Definition __call__ (scope : Dict) : M Served :=
  let! root := read root_path in
  let scope := <["root_path" := AStr root]> scope in
  let! stack := getattr "middleware_stack" middleware_stack in
  let! r := run stack scope in
  ret (mkServed scope r.1 r.2).

End Serving.

(** ** Sample objects and collaborators *)

Definition gzip : Middleware := mkMiddleware "GZipMiddleware" ∅.

Definition cors : Middleware :=
  mkMiddleware "CORSMiddleware" {[ "allow_origins" := AStr "*" ]}.

Definition on_key_error : Handlers :=
  {[ ExcType "KeyError" := CallableRef "on_key_error" ]}.

(** [FastAPI(exception_handlers={KeyError: on_key_error})] *)
Definition handlers_kwargs : Kwargs :=
  mkKwargs false None "FastAPI" EmptyString "0.1.0" (Some "/openapi.json")
    None None (Some "/docs") (Some "/redoc") (Some "/docs/oauth2-redirect")
    None None (Some on_key_error) None None None EmptyString EmptyString true
    None ∅.

(** [FastAPI(root_path="/api")] *)
Definition rooted_kwargs : Kwargs :=
  mkKwargs false None "FastAPI" EmptyString "0.1.0" (Some "/openapi.json")
    None None (Some "/docs") (Some "/redoc") (Some "/docs/oauth2-redirect")
    None None None None None None EmptyString "/api" true None ∅.

(** An application whose attributes are all assigned, with the default
    paths, the root path ["/api"], no middleware and no handlers. *)
Definition plain_app : FastAPI :=
  set_exception_handlers (Some ∅) (allocated rooted_kwargs).


(** [FastAPI(openapi_url=None, docs_url="docs")] once its attributes are
    assigned. *)
Definition undocumented_app : FastAPI :=
  mkFastAPI false ∅ (mkRouter []) None "3.1.0" None None None (Some "docs")
    (Some "/redoc") (Some "/docs/oauth2-redirect") None "FastAPI" EmptyString
    "0.1.0" None None None EmptyString EmptyString true None ∅ [] [] None
    (Some ∅).

(** [FastAPI(docs_url="docs")] once its attributes are assigned. *)
Definition unprefixed_docs_app : FastAPI :=
  mkFastAPI false ∅ (mkRouter []) None "3.1.0" (Some "/openapi.json") None
    None (Some "docs") (Some "/redoc") (Some "/docs/oauth2-redirect") None
    "FastAPI" EmptyString "0.1.0" None None None EmptyString EmptyString true
    None ∅ [] [] None (Some ∅).

(** The failures that a trace reports to the host. *)
Definition reports (tr : list Event) : list Failure :=
  omap (λ e, match e with EvReport f => Some f | _ => None end) tr.

Definition boom : Failure := mkFailure [ExcType "RuntimeError"] "boom".

(** Collaborators for a registry in which nothing matches and whose fallback
    raises; the middleware passes every request on unchanged. *)
Definition failing_ext : Collaborators :=
  mkCollaborators
    (λ args, {[ "openapi" := AStr (arg_openapi_version args) ]})
    (λ _ _ _ _ _, "<swagger-ui>") "<oauth2-redirect>" (λ _ _, "<redoc>")
    (λ _ _, None) (λ _, Failed boom) (λ _ _, Failed boom)
    (λ _ scope, CallNext scope) (λ _ o, o)
    (λ _ _ _, mkResponse 500 (TextBody "handled")).

(** Modelled from the spec: the document of the schema generator, whose code
    is not in this file, carries the title, the version and the format
    version it was given, so it is never the empty document. *)
Definition generates_documents (ext : Collaborators) : Prop :=
  ∀ args, get_openapi ext args ≠ ∅.

Definition items_route : Route :=
  mkRoute "/items" (UserEndpoint (CallableRef "read_items")) None None true.

(** [plain_app] after [add_middleware(GZipMiddleware)] and then
    [add_middleware(CORSMiddleware, allow_origins="*")]. *)
Definition served_app : FastAPI :=
  ((add_middleware "GZipMiddleware" ∅ >>
    add_middleware "CORSMiddleware" {[ "allow_origins" := AStr "*" ]})
     plain_app).2.

(** A scope that arrives with a root path of its own. *)
Definition proxied_scope : Dict :=
  {[ "root_path" := AStr "/behind-proxy"; "path" := AStr "/items" ]}.

(** ** The delegating methods

    [include_router] and [add_websocket_route] hand their arguments to the
    router's methods of the same name and do nothing else.  What those
    methods do to the router is outside this class. *)

(** The keyword arguments of [include_router]. *)
Record IncludeOptions : Type := mkIncludeOptions {
  inc_prefix : string;
  inc_tags : option (list string);
  inc_dependencies : option (list Callable);
  inc_responses : option (list ((Z + string) * Dict));
  inc_deprecated : option bool;
  inc_include_in_schema : bool;
  inc_default_response_class : option Callable;
  inc_callbacks : option (list Route);
  inc_generate_unique_id_function : Callable
}.

Record RouterMethods : Type := mkRouterMethods {
  router_include_router : APIRouter → IncludeOptions → APIRouter → APIRouter;
  router_add_websocket_route :
    string → Endpoint → option string → APIRouter → APIRouter
}.

Definition include_router (rm : RouterMethods) (included : APIRouter)
    (opts : IncludeOptions) : M unit :=
  modify (λ self,
    set_router (router_include_router rm included opts (router self)) self).

Definition add_websocket_route (rm : RouterMethods) (path : string)
    (route : Endpoint) (name : option string) : M unit :=
  modify (λ self,
    set_router (router_add_websocket_route rm path route name (router self))
      self).

(** ** Sequences of calls *)

(** One call of a public method of the class on an existing object. *)
Inductive Op : Type :=
  | OpSetup
  | OpOpenapi
  | OpIncludeRouter (included : APIRouter) (opts : IncludeOptions)
  | OpAddRoute (path : string) (route : Endpoint)
      (methods : option (list string)) (name : option string)
      (include_in_schema : bool)
  | OpAddWebsocketRoute (path : string) (route : Endpoint)
      (name : option string)
  | OpAddMiddleware (middleware_class : string) (options : Dict)
  | OpCall (scope : Dict).

(** The object after the call, whether the call returned or raised. *)
Definition perform (ext : Collaborators) (rm : RouterMethods) (op : Op)
    (self : FastAPI) : FastAPI :=
  match op with
  | OpSetup => (setup self).2
  | OpOpenapi => (openapi ext self).2
  | OpIncludeRouter included opts => (include_router rm included opts self).2
  | OpAddRoute p e ms n i => (add_route p e ms n i self).2
  | OpAddWebsocketRoute p e n => (add_websocket_route rm p e n self).2
  | OpAddMiddleware c o => (add_middleware c o self).2
  | OpCall scope => (__call__ ext scope self).2
  end.

Definition perform_all (ext : Collaborators) (rm : RouterMethods)
    (ops : list Op) (self : FastAPI) : FastAPI :=
  foldl (λ s op, perform ext rm op s) self ops.

(** The calls whose effect on the list of routes is decided in this class. *)
Definition registers_here (op : Op) : bool :=
  match op with
  | OpIncludeRouter _ _ | OpAddWebsocketRoute _ _ _ => false
  | _ => true
  end.


(** The one call that writes the middleware sequence and the stored chain. *)
Definition rebuilds (op : Op) : bool :=
  match op with
  | OpAddMiddleware _ _ => true
  | _ => false
  end.

(** ** What setup does, read off its four path attributes

    Each block of [setup] either is skipped, or raises before it registers,
    or registers; a block runs only if the one before it returned. *)

Definition aux_route (p : string) (e : Endpoint) : Route :=
  mkRoute p e None None false.

Definition then_plan (p q : res unit * list Route) : res unit * list Route :=
  match p with
  | (Ok _, added) => (q.1, added ++ q.2)
  | (Raise e, added) => (Raise e, added)
  end.

Definition check_plan (p : string) (msg : string) (e : Endpoint)
    : res unit * list Route :=
  if startswith_slash p then (Ok tt, [aux_route p e])
  else (Raise (AssertionError msg), []).

Definition setup_plan (ourl durl surl rurl : option string)
    : res unit * list Route :=
  then_plan
    (if truthy_str ourl
     then check_plan (str ourl) "openapi_url should start with /" ServeOpenAPI
     else (Ok tt, []))
    (then_plan
       (if truthy_str ourl && truthy_str durl
        then then_plan
               (check_plan (str durl) "docs_url should start with /"
                  ServeSwaggerUI)
               (if truthy_str surl
                then check_plan (str surl)
                       "swagger_ui_oauth2_redirect_url should start with /"
                       ServeOAuth2Redirect
                else (Ok tt, []))
        else (Ok tt, []))
       (if truthy_str ourl && truthy_str rurl
        then check_plan (str rurl) "redoc_url should start with /" ServeReDoc
        else (Ok tt, []))).

Definition plan_of (self : FastAPI) : res unit * list Route :=
  setup_plan (openapi_url self) (docs_url self)
    (swagger_ui_oauth2_redirect_url self) (redoc_url self).

(** Router methods that register nothing, for objects that only use
    [add_route]. *)
Definition inert_router_methods : RouterMethods :=
  mkRouterMethods (λ _ _ rt, rt) (λ _ _ _ rt, rt).

(** [FastAPI(docs_url=None, swagger_ui_oauth2_redirect_url="oauth")] once
    its attributes are assigned. *)
Definition no_docs_app : FastAPI :=
  mkFastAPI false ∅ (mkRouter []) None "3.1.0" (Some "/openapi.json") None
    None None (Some "/redoc") (Some "oauth") None "FastAPI" EmptyString
    "0.1.0" None None None EmptyString EmptyString true None ∅ [] [] None
    (Some ∅).

(** [FastAPI(openapi_url="")] once its attributes are assigned. *)
Definition empty_url_app : FastAPI :=
  mkFastAPI false ∅ (mkRouter []) None "3.1.0" (Some EmptyString) None
    None (Some "docs") (Some "/redoc") (Some "/docs/oauth2-redirect") None
    "FastAPI" EmptyString "0.1.0" None None None EmptyString EmptyString true
    None ∅ [] [] None (Some ∅).

(** A configured path passes its check. *)
Definition acceptable (o : option string) : bool :=
  implb (truthy_str o) (startswith_slash (str o)).

(** The configurations that [setup] accepts. *)
Definition paths_ok (self : FastAPI) : bool :=
  negb (truthy_str (openapi_url self))
  || (startswith_slash (str (openapi_url self))
      && (negb (truthy_str (docs_url self))
          || (startswith_slash (str (docs_url self))
              && acceptable (swagger_ui_oauth2_redirect_url self)))
      && acceptable (redoc_url self)).

(** What one request may do to the object: nothing, or fill a cache that
    tested falsy with the document generated from the object as it is. *)
Definition cache_step (ext : Collaborators) (self self' : FastAPI) : Prop :=
  self' = self
  ∨ (truthy_dict (openapi_schema self) = false ∧
     self' =
       set_openapi_schema (Some (get_openapi ext (openapi_args self))) self).

(** The object with the four attributes that the methods write blanked out:
    what is left is what the constructor fixed. *)
Definition settings (self : FastAPI) : FastAPI :=
  set_router (mkRouter [])
    (set_openapi_schema None
       (set_user_middleware [] (set_middleware_stack None self))).

(** [plain_app] with one user route already registered. *)
Definition items_app : FastAPI :=
  set_router (mkRouter [items_route]) plain_app.

(** [served_app] with a non-empty document in the cache. *)
Definition cached_app : FastAPI :=
  set_openapi_schema (Some {[ "openapi" := AStr "3.1.0" ]}) served_app.

(** A registration, the auxiliary routes, a read of the schema, a request
    and one more middleware. *)
Definition sample_calls : list Op :=
  [OpAddRoute "/users" (UserEndpoint (CallableRef "read_users")) None None
     true;
   OpSetup;
   OpOpenapi;
   OpCall proxied_scope;
   OpAddMiddleware "GZipMiddleware" ∅].

(** Registrations of every kind, a read of the schema and a request, with no
    middleware added. *)
Definition sample_registrations : list Op :=
  [OpIncludeRouter (mkRouter [items_route])
     (mkIncludeOptions "/v1" None None None None true None None
        (CallableRef "generate_operation_id_for_path"));
   OpAddWebsocketRoute "/ws" (UserEndpoint (CallableRef "feed")) None;
   OpAddRoute "/users" (UserEndpoint (CallableRef "read_users")) None None
     true;
   OpSetup;
   OpOpenapi;
   OpCall proxied_scope].

(** The same with a router inclusion and a websocket route in front. *)
Definition sample_calls_with_inclusion : list Op :=
  OpIncludeRouter (mkRouter [items_route])
    (mkIncludeOptions "/v1" None None None None true None None
       (CallableRef "generate_operation_id_for_path"))
  :: OpAddWebsocketRoute "/ws" (UserEndpoint (CallableRef "feed")) None
  :: sample_calls.

(** * Properties *)

(** ** Stepping through a method body *)

Ltac step :=
  unfold add_middleware, build_middleware_stack, add_route, getattr, when,
    assert, modify, read, raise, bind, ret in *;
  cbn [fst snd] in *.

(** ** The shape of the chain *)

Lemma fold_left_wrap_rev (mws : list Middleware) (app : ASGIApp) :
  fold_left wrap (rev mws) app = foldr MiddlewareApp app mws.
Proof.
  induction mws as [|m mws IH]; [reflexivity|].
  cbn [rev foldr]. rewrite fold_left_app. cbn [fold_left].
  unfold wrap at 1. by rewrite IH.
Qed.



Lemma build_middleware_stack_eq (self : FastAPI) (h : Handlers) :
  exception_handlers self = Some h →
  build_middleware_stack self =
    (Ok (ServerErrorMiddleware (nest (user_middleware self)) (_debug self) h),
     self).
Proof.
  intros Hh. step. rewrite Hh, fold_left_wrap_rev. reflexivity.
Qed.



(** ** The constructor *)

(** The chain is a function of the four attributes it is built from. *)
Lemma build_middleware_stack_pure (a b : FastAPI) :
  user_middleware a = user_middleware b →
  exception_handlers a = exception_handlers b →
  _debug a = _debug b →
  (build_middleware_stack a).1 = (build_middleware_stack b).1.
Proof.
  intros Hm Hh Hd. step. rewrite Hm, Hh, Hd.
  by destruct (exception_handlers b).
Qed.

(** C2: the build that the constructor performs runs before
    [exception_handlers] is assigned.  Whatever handlers the caller passes,
    the read of the attribute raises, no chain is stored and the handler map
    is never assigned. *)
Theorem init_builds_before_handlers_assigned (kw : Kwargs) :
  ∃ self,
    __init__ kw = (Raise (AttributeError "exception_handlers"), self) ∧
    self = allocated kw ∧
    middleware_stack self = None ∧
    exception_handlers self = None.
Proof. exists (allocated kw). by repeat split. Qed.

(** The handlers passed by the caller are not in the object when the
    constructor stops. *)
Example init_with_handlers :
  __init__ handlers_kwargs =
    (Raise (AttributeError "exception_handlers"), allocated handlers_kwargs) ∧
  kw_exception_handlers handlers_kwargs = Some on_key_error ∧
  exception_handlers (allocated handlers_kwargs) = None.
Proof. by repeat split. Qed.

(** Had the two statements been in the other order, the chain of the
    constructor would carry the caller's handlers. *)
Example build_after_handlers_assigned :
  (build_middleware_stack
     (set_exception_handlers (Some on_key_error) (allocated handlers_kwargs))).1
  = Ok (ServerErrorMiddleware RouterRef false on_key_error).
Proof. reflexivity. Qed.

(** ** The auxiliary routes *)

(** With the default paths, [setup] registers the four routes in this order. *)
Example setup_plain_app :
  (setup plain_app).1 = Ok tt ∧
  routes (router (setup plain_app).2) =
    [mkRoute "/openapi.json" ServeOpenAPI None None false;
     mkRoute "/docs" ServeSwaggerUI None None false;
     mkRoute "/docs/oauth2-redirect" ServeOAuth2Redirect None None false;
     mkRoute "/redoc" ServeReDoc None None false].
Proof. by split. Qed.


Ltac setup_cases self :=
  destruct self as [? ? [rs] ? ? ourl ? ? durl rurl surl ? ? ? ? ? ? ? ? ? ? ? ? ? ? ? ?];
  destruct ourl as [ou|], durl as [du|], surl as [su|], rurl as [ru|];
  unfold setup, truthy_str, str; step; cbn;
  repeat match goal with
  | H : String.eqb ?s EmptyString = _
    |- context [String.eqb ?s EmptyString] => rewrite H; cbn
  | H : startswith_slash ?s = _ |- context [startswith_slash ?s] =>
      rewrite H; cbn
  | |- context [String.eqb ?s EmptyString] =>
      destruct (String.eqb s EmptyString) eqn:?; cbn
  | |- context [startswith_slash ?s] =>
      destruct (startswith_slash s) eqn:?; cbn
  end.

(** C8: whatever [setup] appends to the router's routes, on any
    configuration and whether it returns or raises, carries
    [include_in_schema = False] and one of the four auxiliary endpoints. *)
Theorem setup_routes_hidden (self : FastAPI) :
  ∃ added,
    routes (router (setup self).2) = routes (router self) ++ added ∧
    Forall (λ r,
      include_in_schema r = false ∧
      endpoint r ∈ [ServeOpenAPI; ServeSwaggerUI; ServeOAuth2Redirect; ServeReDoc])
      added.
Proof.
  setup_cases self;
    rewrite <- ?app_assoc; cbn [app];
    first [ eexists; split; [reflexivity|];
            repeat constructor
          | exists []; split; [by rewrite app_nil_r | constructor] ].
Qed.

(** C9: without a schema path, [setup] returns normally and leaves the whole
    object, its routes included, as it found it, whatever the other three
    paths are. *)
Theorem setup_without_openapi_url (self : FastAPI) :
  openapi_url self = None →
  setup self = (Ok tt, self).
Proof.
  intros Hurl. destruct self; cbn in Hurl; subst. reflexivity.
Qed.

Lemma setup_without_openapi_url_witness :
  openapi_url undocumented_app = None ∧
  docs_url undocumented_app = Some "docs" ∧
  setup undocumented_app = (Ok tt, undocumented_app).
Proof.
  split; [reflexivity|]. split; [reflexivity|].
  exact (setup_without_openapi_url undocumented_app eq_refl).
Defined.

(** C6, as stated, fails: with [openapi_url=None] the path ["docs"], which
    lacks the separator, is accepted and [setup] returns normally. *)
Lemma setup_accepts_unprefixed_docs_url :
  docs_url undocumented_app = Some "docs" ∧
  startswith_slash "docs" = false ∧
  setup undocumented_app = (Ok tt, undocumented_app).
Proof. by repeat split. Qed.

(** C6, amended: when the schema path is configured, [setup] raises an
    assertion error as soon as a path it reaches lacks the separator: the
    schema path itself, the docs path, the OAuth2 redirect path when the docs
    path is configured, and the alternate docs path. *)
Theorem setup_rejects_unprefixed_path (self : FastAPI) :
  truthy_str (openapi_url self) = true →
  startswith_slash (str (openapi_url self)) = false
  ∨ (truthy_str (docs_url self) = true ∧
     startswith_slash (str (docs_url self)) = false)
  ∨ (truthy_str (docs_url self) = true ∧
     truthy_str (swagger_ui_oauth2_redirect_url self) = true ∧
     startswith_slash (str (swagger_ui_oauth2_redirect_url self)) = false)
  ∨ (truthy_str (redoc_url self) = true ∧
     startswith_slash (str (redoc_url self)) = false) →
  ∃ msg self', setup self = (Raise (AssertionError msg), self').
Proof.
  setup_cases self; intros Hurl Hbad;
    try discriminate Hurl;
    try (do 2 eexists; reflexivity);
    exfalso;
    repeat match goal with
    | H : _ ∨ _ |- _ => destruct H
    | H : _ ∧ _ |- _ => destruct H
    end;
    discriminate.
Qed.

Lemma setup_rejects_unprefixed_path_witness :
  truthy_str (openapi_url unprefixed_docs_app) = true ∧
  truthy_str (docs_url unprefixed_docs_app) = true ∧
  startswith_slash (str (docs_url unprefixed_docs_app)) = false ∧
  ∃ msg self',
    setup unprefixed_docs_app = (Raise (AssertionError msg), self').
Proof.
  split; [reflexivity|]. split; [reflexivity|]. split; [reflexivity|].
  apply (setup_rejects_unprefixed_path unprefixed_docs_app);
    [reflexivity | right; left; split; reflexivity].
Defined.

(** The schema route is already registered when the docs path is rejected. *)
Example setup_unprefixed_docs_app :
  setup unprefixed_docs_app =
    (Raise (AssertionError "docs_url should start with /"),
     set_router
       (mkRouter [mkRoute "/openapi.json" ServeOpenAPI None None false])
       unprefixed_docs_app).
Proof. reflexivity. Qed.

(** ** add_middleware *)

Lemma add_middleware_eq (c : string) (o : Dict) (self : FastAPI) (h : Handlers) :
  exception_handlers self = Some h →
  add_middleware c o self =
    (Ok tt,
     set_middleware_stack
       (Some (ServerErrorMiddleware
                (nest (mkMiddleware c o :: user_middleware self))
                (_debug self) h))
       (set_user_middleware (mkMiddleware c o :: user_middleware self) self)).
Proof.
  intros Hh. unfold add_middleware, bind, modify at 1. cbn [fst snd].
  rewrite (build_middleware_stack_eq _ h) by (by destruct self).
  by destruct self.
Qed.

(** C10: [add_middleware] writes [user_middleware] and [middleware_stack] and
    nothing else, whether the rebuild returns or raises. *)
Theorem add_middleware_frame (c : string) (o : Dict) (self : FastAPI) :
  let self' := (add_middleware c o self).2 in
  _debug self' = _debug self ∧
  state self' = state self ∧
  router self' = router self ∧
  openapi_schema self' = openapi_schema self ∧
  openapi_version self' = openapi_version self ∧
  openapi_url self' = openapi_url self ∧
  openapi_tags self' = openapi_tags self ∧
  servers self' = servers self ∧
  docs_url self' = docs_url self ∧
  redoc_url self' = redoc_url self ∧
  swagger_ui_oauth2_redirect_url self' = swagger_ui_oauth2_redirect_url self ∧
  swagger_ui_init_oauth self' = swagger_ui_init_oauth self ∧
  title self' = title self ∧
  description self' = description self ∧
  version self' = version self ∧
  terms_of_service self' = terms_of_service self ∧
  contact self' = contact self ∧
  license_info self' = license_info self ∧
  openapi_prefix self' = openapi_prefix self ∧
  root_path self' = root_path self ∧
  root_path_in_servers self' = root_path_in_servers self ∧
  swagger_ui_parameters self' = swagger_ui_parameters self ∧
  extra self' = extra self ∧
  dependency_overrides self' = dependency_overrides self ∧
  exception_handlers self' = exception_handlers self.
Proof.
  step. destruct self as [? ? ? ? ? ? ? ? ? ? ? ? ? ? ? ? ? ? ? ? ? ? ? ? ? ? eh].
  destruct eh; cbn; repeat split; reflexivity.
Qed.

(** ** The schema cache *)

Lemma openapi_spec (ext : Collaborators) (self : FastAPI) :
  openapi ext self =
    if truthy_dict (openapi_schema self)
    then (Ok (openapi_schema self), self)
    else (Ok (Some (get_openapi ext (openapi_args self))),
          set_openapi_schema (Some (get_openapi ext (openapi_args self))) self).
Proof.
  unfold openapi. step.
  by destruct (truthy_dict (openapi_schema self)).
Qed.

Lemma openapi_total (ext : Collaborators) (self : FastAPI) :
  ∃ d self', openapi ext self = (Ok (Some d), self').
Proof.
  rewrite openapi_spec.
  destruct (truthy_dict (openapi_schema self)) eqn:Ht; [|by eauto].
  destruct (openapi_schema self) as [d|]; [by eauto | discriminate].
Qed.

(** Once a call has returned a document that is not empty, every later call
    on an object whose cache attribute still holds it returns that document
    and changes nothing. *)
Lemma openapi_memoized (ext : Collaborators) (self self1 : FastAPI) (d : Dict) :
  openapi ext self = (Ok (Some d), self1) →
  d ≠ ∅ →
  openapi_schema self1 = Some d ∧
  ∀ self2,
    openapi_schema self2 = openapi_schema self1 →
    openapi ext self2 = (Ok (Some d), self2).
Proof.
  intros Hcall Hne.
  assert (Hstored : openapi_schema self1 = Some d).
  { rewrite openapi_spec in Hcall.
    destruct (truthy_dict (openapi_schema self)) eqn:Ht.
    - injection Hcall as Hs <-. exact Hs.
    - injection Hcall as <- <-. reflexivity. }
  split; [exact Hstored|].
  intros self2 Hsame. rewrite openapi_spec, Hsame, Hstored.
  unfold truthy_dict. by rewrite bool_decide_eq_true_2.
Qed.

(** What a call returns is never the empty document. *)
Lemma openapi_document_non_empty (ext : Collaborators) (self self1 : FastAPI)
    (d : Dict) :
  generates_documents ext →
  openapi ext self = (Ok (Some d), self1) →
  d ≠ ∅.
Proof.
  intros Hgen. rewrite openapi_spec.
  destruct (truthy_dict (openapi_schema self)) eqn:Ht.
  - intros [= Hs _]. rewrite Hs in Ht. cbn in Ht.
    by apply bool_decide_eq_true_1 in Ht.
  - intros [= <- _]. apply Hgen.
Qed.

(** C3: the schema generator never returning the empty document, a call of
    [openapi] returns a document and stores it, and every call made later on
    an object whose cache attribute has not been reset returns that same
    document and changes nothing, whatever else differs by then, the routes
    of the registry included. *)
Theorem openapi_returns_stored_document (ext : Collaborators) (self : FastAPI) :
  generates_documents ext →
  ∃ d self1,
    openapi ext self = (Ok (Some d), self1) ∧
    openapi_schema self1 = Some d ∧
    ∀ self2,
      openapi_schema self2 = openapi_schema self1 →
      openapi ext self2 = (Ok (Some d), self2).
Proof.
  intros Hgen.
  destruct (openapi_total ext self) as (d & self1 & Hcall).
  exists d, self1. split; [exact Hcall|].
  apply (openapi_memoized ext self); [exact Hcall|].
  by apply (openapi_document_non_empty ext self self1).
Qed.

Lemma failing_ext_generates_documents : generates_documents failing_ext.
Proof. intros args. apply map_non_empty_singleton. Qed.

Lemma openapi_returns_stored_document_witness :
  generates_documents failing_ext ∧
  ∃ d self1,
    openapi failing_ext plain_app = (Ok (Some d), self1) ∧
    openapi_schema self1 = Some d ∧
    ∀ self2,
      openapi_schema self2 = openapi_schema self1 →
      openapi failing_ext self2 = (Ok (Some d), self2).
Proof.
  split; [exact failing_ext_generates_documents|].
  exact (openapi_returns_stored_document failing_ext plain_app
           failing_ext_generates_documents).
Defined.

(** A route registered between two calls is not in the second document: the
    second call returns what the first one stored. *)
Example openapi_ignores_late_route :
  let first := openapi failing_ext plain_app in
  let registered :=
    (add_route "/items" (endpoint items_route) None None true first.2).2 in
  routes (router registered) = [items_route] ∧
  openapi failing_ext registered = (first.1, registered).
Proof. by split. Qed.

(** ** Running the chain *)

Section Run.

Variable ext : Collaborators.

Lemma call_route_total (route : Route) (scope : Dict) (self : FastAPI) :
  ∃ o self', call_route ext route scope self = (Ok o, self').
Proof.
  unfold call_route.
  destruct (endpoint route); step; try (by eauto).
  destruct (openapi_total ext self) as (d & self' & ->). by eauto.
Qed.

Lemma dispatch_total (scope : Dict) (self : FastAPI) :
  ∃ o self', dispatch ext scope self = (Ok o, self').
Proof.
  unfold dispatch. step.
  destruct (route_match ext (routes (router self)) scope).
  - apply call_route_total.
  - by eauto.
Qed.

(** A call of the chain always comes back with an outcome: whatever the
    layers raise is a [Failed] outcome, never an error of the chain itself. *)
Lemma run_total (app : ASGIApp) :
  ∀ scope self, ∃ r self', run ext app scope self = (Ok r, self').
Proof.
  induction app as [|m inner IH|inner IH d h]; intros scope self; cbn [run].
  - step. destruct (dispatch_total scope self) as (o & self' & ->). by eauto.
  - unfold middleware_layer. destruct (dispatch_pre ext m scope) as [scope'|o].
    + step. destruct (IH scope' self) as (r & self' & ->). by eauto.
    + step. by eauto.
  - step. destruct (IH scope self) as (r & self' & ->). by eauto.
Qed.

(** The trace of a middleware layer starts with its own pre-processing. *)
Lemma run_middleware_trace (m : Middleware) (inner : ASGIApp) (scope : Dict)
    (self self' : FastAPI) (r : Outcome * list Event) :
  run ext (MiddlewareApp m inner) scope self = (Ok r, self') →
  match dispatch_pre ext m scope with
  | Return _ => r.2 = [EvPre m]
  | CallNext scope' =>
      ∃ r', run ext inner scope' self = (Ok r', self') ∧
            r.2 = EvPre m :: r'.2 ++ [EvPost m]
  end.
Proof.
  cbn [run]. unfold middleware_layer.
  destruct (dispatch_pre ext m scope) as [scope'|o]; step.
  - destruct (run ext inner scope' self) as [[r'|e] s] eqn:Hr; [|discriminate].
    intros [= <- <-]. by eauto.
  - by intros [= <- <-].
Qed.



Lemma run_boundary (inner : ASGIApp) (d : bool) (h : Handlers)
    (scope : Dict) (self self' : FastAPI) (r0 : Outcome * list Event) :
  run ext inner scope self = (Ok r0, self') →
  run ext (ServerErrorMiddleware inner d h) scope self =
    (Ok (error_boundary ext d h scope r0), self').
Proof. intros Hin. cbn [run]. step. by rewrite Hin. Qed.

(** No layer below the boundary reports to the host. *)
Lemma run_nest_reports (mws : list Middleware) :
  ∀ scope self r self',
    run ext (nest mws) scope self = (Ok r, self') → reports r.2 = [].
Proof.
  induction mws as [|m mws IH]; intros scope self r self' Hrun.
  - cbn in Hrun. step.
    destruct (dispatch ext scope self) as [[o|e] s]; [|discriminate].
    by injection Hrun as <- <-.
  - apply run_middleware_trace in Hrun.
    destruct (dispatch_pre ext m scope) as [scope'|o].
    + destruct Hrun as (r' & Hinner & ->).
      unfold reports in *. cbn. rewrite omap_app. cbn.
      rewrite (IH _ _ _ _ Hinner). reflexivity.
    + by rewrite Hrun.
Qed.

End Run.

(** ** The entry point *)

Lemma call_runs_chain (ext : Collaborators) (self : FastAPI)
    (chain : ASGIApp) (scope : Dict) :
  middleware_stack self = Some chain →
  let stamped := <["root_path" := AStr (root_path self)]> scope in
  ∃ r self',
    run ext chain stamped self = (Ok r, self') ∧
    __call__ ext scope self = (Ok (mkServed stamped r.1 r.2), self').
Proof.
  intros Hstack stamped.
  destruct (run_total ext chain stamped self) as (r & self' & Hrun).
  exists r, self'. split; [exact Hrun|].
  unfold __call__. step. rewrite Hstack. fold stamped. by rewrite Hrun.
Qed.

(** C5: the entry point writes the configured root path into the scope,
    over whatever the scope held under that key, and the chain is run on the
    scope so written. *)
Theorem call_stamps_root_path (ext : Collaborators) (self : FastAPI)
    (chain : ASGIApp) (scope : Dict) :
  middleware_stack self = Some chain →
  let stamped := <["root_path" := AStr (root_path self)]> scope in
  stamped !! "root_path" = Some (AStr (root_path self)) ∧
  ∃ r self',
    run ext chain stamped self = (Ok r, self') ∧
    __call__ ext scope self = (Ok (mkServed stamped r.1 r.2), self').
Proof.
  intros Hstack stamped. split; [apply lookup_insert_eq|].
  by apply call_runs_chain.
Qed.

Lemma call_stamps_root_path_witness :
  proxied_scope !! "root_path" = Some (AStr "/behind-proxy") ∧
  ∃ chain,
    middleware_stack served_app = Some chain ∧
    let stamped := <["root_path" := AStr (root_path served_app)]> proxied_scope in
    stamped !! "root_path" = Some (AStr "/api") ∧
    ∃ r self',
      run failing_ext chain stamped served_app = (Ok r, self') ∧
      __call__ failing_ext proxied_scope served_app
        = (Ok (mkServed stamped r.1 r.2), self').
Proof.
  split; [reflexivity|]. eexists. split; [reflexivity|].
  exact (call_stamps_root_path failing_ext served_app _ proxied_scope eq_refl).
Defined.



(** The whole trace of one request through the two layers. *)
Example served_app_trace :
  (__call__ failing_ext proxied_scope served_app).1 =
    Ok (mkServed (<["root_path" := AStr "/api"]> proxied_scope)
          (Responded error_response)
          [EvPre cors; EvPre gzip; EvDispatch; EvPost gzip; EvPost cors;
           EvReport boom]).
Proof. reflexivity. Qed.

(** ** The error boundary *)

(** C7: on an application with [debug] off whose stored chain is the one built
    from its attributes, a request whose handling below the boundary fails
    with a failure that has no handler ends in the generic response, which is
    the same for every failure, and the trace of the request reports that
    failure to the host once. *)
Theorem undeclared_failure_answered_once (ext : Collaborators) (self self' : FastAPI)
    (h : Handlers) (chain : ASGIApp) (scope : Dict) (f : Failure)
    (tr : list Event) :
  _debug self = false →
  exception_handlers self = Some h →
  (build_middleware_stack self).1 = Ok chain →
  middleware_stack self = Some chain →
  let stamped := <["root_path" := AStr (root_path self)]> scope in
  run ext (nest (user_middleware self)) stamped self = (Ok (Failed f, tr), self') →
  lookup_handler h f = None →
  __call__ ext scope self =
    (Ok (mkServed stamped (Responded error_response) (tr ++ [EvReport f])),
     self') ∧
  reports (tr ++ [EvReport f]) = [f].
Proof.
  intros Hdebug Hh Hbuild Hstack stamped Hrun Hnone. split.
  - rewrite (build_middleware_stack_eq self h Hh) in Hbuild.
    injection Hbuild as <-. rewrite Hdebug in Hstack.
    unfold __call__. step. rewrite Hstack. fold stamped.
    rewrite (run_boundary ext _ false h _ _ _ _ Hrun).
    unfold error_boundary. cbn. by rewrite Hnone.
  - pose proof (run_nest_reports ext _ _ _ _ _ Hrun) as Hquiet.
    cbn [snd] in Hquiet. unfold reports in *.
    by rewrite omap_app, Hquiet.
Qed.

Lemma undeclared_failure_answered_once_witness :
  _debug served_app = false ∧
  lookup_handler ∅ boom = None ∧
  __call__ failing_ext proxied_scope served_app =
    (Ok (mkServed (<["root_path" := AStr "/api"]> proxied_scope)
           (Responded error_response)
           ([EvPre cors; EvPre gzip; EvDispatch; EvPost gzip; EvPost cors]
              ++ [EvReport boom])),
     served_app) ∧
  reports ([EvPre cors; EvPre gzip; EvDispatch; EvPost gzip; EvPost cors]
             ++ [EvReport boom]) = [boom].
Proof.
  split; [reflexivity|]. split; [reflexivity|].
  exact (undeclared_failure_answered_once failing_ext served_app served_app ∅
           (ServerErrorMiddleware (nest [cors; gzip]) false ∅) proxied_scope
           boom [EvPre cors; EvPre gzip; EvDispatch; EvPost gzip; EvPost cors]
           eq_refl eq_refl eq_refl eq_refl eq_refl eq_refl).
Defined.

(** * Further properties *)

(** ** setup, block by block *)

Lemma setup_spec (self : FastAPI) :
  setup self =
    ((plan_of self).1,
     set_router (mkRouter (routes (router self) ++ (plan_of self).2)) self).
Proof.
  unfold plan_of, setup_plan, check_plan, then_plan, aux_route.
  setup_cases self;
    unfold set_router, router_add_route; cbn;
    rewrite <- ?app_assoc, ?app_nil_r; reflexivity.
Qed.

Ltac plan_cases self :=
  unfold plan_of, setup_plan, check_plan, then_plan, paths_ok, acceptable;
  destruct (truthy_str (openapi_url self)),
    (startswith_slash (str (openapi_url self))),
    (truthy_str (docs_url self)),
    (startswith_slash (str (docs_url self))),
    (truthy_str (swagger_ui_oauth2_redirect_url self)),
    (startswith_slash (str (swagger_ui_oauth2_redirect_url self))),
    (truthy_str (redoc_url self)),
    (startswith_slash (str (redoc_url self)));
  cbn.

Lemma startswith_slash_truthy (s : string) :
  startswith_slash s = true → truthy_str (Some s) = true.
Proof. by destruct s. Qed.

(** X1: with all four paths configured and prefixed, [setup] returns and
    appends exactly the schema route, the docs route, the OAuth2 redirect
    route and the alternate docs route, in this order, after the routes that
    were there. *)
Theorem setup_registers_all_four (self : FastAPI) (ou du su ru : string) :
  openapi_url self = Some ou → startswith_slash ou = true →
  docs_url self = Some du → startswith_slash du = true →
  swagger_ui_oauth2_redirect_url self = Some su → startswith_slash su = true →
  redoc_url self = Some ru → startswith_slash ru = true →
  setup self =
    (Ok tt,
     set_router
       (mkRouter
          (routes (router self) ++
             [mkRoute ou ServeOpenAPI None None false;
              mkRoute du ServeSwaggerUI None None false;
              mkRoute su ServeOAuth2Redirect None None false;
              mkRoute ru ServeReDoc None None false]))
       self).
Proof.
  intros Ho Hos Hd Hds Hs Hss Hr Hrs. rewrite setup_spec.
  unfold plan_of, setup_plan, check_plan, then_plan, aux_route.
  rewrite Ho, Hd, Hs, Hr.
  rewrite !startswith_slash_truthy by done. cbn.
  rewrite Hos, Hds, Hss, Hrs. reflexivity.
Qed.

Lemma setup_registers_all_four_witness :
  setup plain_app =
    (Ok tt,
     set_router
       (mkRouter
          (routes (router plain_app) ++
             [mkRoute "/openapi.json" ServeOpenAPI None None false;
              mkRoute "/docs" ServeSwaggerUI None None false;
              mkRoute "/docs/oauth2-redirect" ServeOAuth2Redirect None None
                 false;
              mkRoute "/redoc" ServeReDoc None None false]))
       plain_app).
Proof.
  exact (setup_registers_all_four plain_app "/openapi.json" "/docs"
           "/docs/oauth2-redirect" "/redoc"
           eq_refl eq_refl eq_refl eq_refl eq_refl eq_refl eq_refl eq_refl).
Defined.

(** X2: [setup] returns normally exactly on the configurations in which
    every path it reaches starts with the separator: no schema path, or a
    prefixed schema path with the docs path absent or prefixed (and then the
    redirect path absent or prefixed) and the alternate docs path absent or
    prefixed. *)
Theorem setup_ok_iff (self : FastAPI) :
  (setup self).1 = Ok tt ↔ paths_ok self = true.
Proof.
  rewrite setup_spec. cbn [fst]. plan_cases self; split; done.
Qed.

(** X3: [setup] raises nothing but an assertion error carrying one of its
    four messages. *)
Theorem setup_raises_assertions_only (self : FastAPI) (e : Exn) :
  (setup self).1 = Raise e →
  e ∈ [AssertionError "openapi_url should start with /";
       AssertionError "docs_url should start with /";
       AssertionError "swagger_ui_oauth2_redirect_url should start with /";
       AssertionError "redoc_url should start with /"].
Proof.
  rewrite setup_spec. cbn [fst].
  plan_cases self; intros [= <-] || intros [=]; set_solver.
Qed.

Lemma setup_raises_assertions_only_witness :
  (setup unprefixed_docs_app).1 =
    Raise (AssertionError "docs_url should start with /") ∧
  AssertionError "docs_url should start with /"
  ∈ [AssertionError "openapi_url should start with /";
     AssertionError "docs_url should start with /";
     AssertionError "swagger_ui_oauth2_redirect_url should start with /";
     AssertionError "redoc_url should start with /"].
Proof.
  split; [reflexivity|].
  exact (setup_raises_assertions_only unprefixed_docs_app _ eq_refl).
Defined.

(** X4: a schema path that is [None] or the empty string switches [setup]
    off: it returns normally and the object is as before, whatever the other
    paths are. *)
Theorem setup_falsy_openapi_url (self : FastAPI) :
  truthy_str (openapi_url self) = false →
  setup self = (Ok tt, self).
Proof.
  intros Hfalsy. rewrite setup_spec.
  unfold plan_of, setup_plan, then_plan. rewrite Hfalsy. cbn.
  rewrite app_nil_r. by destruct self as [? ? []].
Qed.

Lemma setup_falsy_openapi_url_witness :
  openapi_url empty_url_app = Some EmptyString ∧
  docs_url empty_url_app = Some "docs" ∧
  setup empty_url_app = (Ok tt, empty_url_app).
Proof.
  split; [reflexivity|]. split; [reflexivity|].
  exact (setup_falsy_openapi_url empty_url_app eq_refl).
Defined.

(** X5: a rejected docs path leaves the schema route behind: [setup] raises
    after it has registered the route of a prefixed schema path, and the
    router keeps that route. *)
Theorem setup_docs_rejected_keeps_schema_route (self : FastAPI) (ou du : string) :
  openapi_url self = Some ou → startswith_slash ou = true →
  docs_url self = Some du → du ≠ EmptyString → startswith_slash du = false →
  setup self =
    (Raise (AssertionError "docs_url should start with /"),
     set_router
       (mkRouter
          (routes (router self) ++ [mkRoute ou ServeOpenAPI None None false]))
       self).
Proof.
  intros Ho Hos Hd Hne Hds. rewrite setup_spec.
  unfold plan_of, setup_plan, check_plan, then_plan, aux_route.
  rewrite Ho, Hd. rewrite (startswith_slash_truthy ou) by done.
  assert (Hdt : truthy_str (Some du) = true).
  { cbn. apply negb_true_iff. by apply String.eqb_neq. }
  rewrite Hdt. cbn. rewrite Hos, Hds. cbn.
  rewrite ?app_nil_r. reflexivity.
Qed.

Lemma setup_docs_rejected_keeps_schema_route_witness :
  setup unprefixed_docs_app =
    (Raise (AssertionError "docs_url should start with /"),
     set_router
       (mkRouter
          (routes (router unprefixed_docs_app) ++
             [mkRoute "/openapi.json" ServeOpenAPI None None false]))
       unprefixed_docs_app).
Proof.
  apply (setup_docs_rejected_keeps_schema_route unprefixed_docs_app
           "/openapi.json" "docs"); done.
Defined.

(** X6: without a docs path the OAuth2 redirect path is neither checked nor
    registered: [setup] appends schema and alternate docs routes only and
    never raises the redirect assertion. *)
Theorem setup_without_docs_skips_redirect (self : FastAPI) :
  truthy_str (docs_url self) = false →
  (setup self).1 ≠
    Raise (AssertionError "swagger_ui_oauth2_redirect_url should start with /")
  ∧ ∃ added,
      routes (router (setup self).2) = routes (router self) ++ added ∧
      Forall (λ r, endpoint r = ServeOpenAPI ∨ endpoint r = ServeReDoc) added.
Proof.
  intros Hnodocs. rewrite setup_spec. cbn [fst snd].
  unfold plan_of, setup_plan, check_plan, then_plan.
  rewrite Hnodocs, andb_false_r.
  destruct (truthy_str (openapi_url self)),
    (startswith_slash (str (openapi_url self))),
    (truthy_str (redoc_url self)),
    (startswith_slash (str (redoc_url self)));
    cbn; (split; [done|]); eexists; (split; [reflexivity|]);
    repeat (apply Forall_cons_2; [cbn; auto|]); apply Forall_nil_2.
Qed.

Lemma setup_without_docs_skips_redirect_witness :
  swagger_ui_oauth2_redirect_url no_docs_app = Some "oauth" ∧
  (setup no_docs_app).1 = Ok tt ∧
  (setup no_docs_app).1 ≠
    Raise (AssertionError "swagger_ui_oauth2_redirect_url should start with /")
  ∧ ∃ added,
      routes (router (setup no_docs_app).2)
        = routes (router no_docs_app) ++ added ∧
      Forall (λ r, endpoint r = ServeOpenAPI ∨ endpoint r = ServeReDoc) added.
Proof.
  split; [reflexivity|]. split; [reflexivity|].
  exact (setup_without_docs_skips_redirect no_docs_app eq_refl).
Defined.

Lemma plan_of_set_router (r : APIRouter) (self : FastAPI) :
  plan_of (set_router r self) = plan_of self.
Proof. reflexivity. Qed.

(** X7: [setup] does not look at what is registered: called again on an
    accepted configuration it returns again and appends the same auxiliary
    routes a second time. *)
Theorem setup_twice_registers_twice (self : FastAPI) :
  (setup self).1 = Ok tt →
  ∃ added,
    routes (router (setup self).2) = routes (router self) ++ added ∧
    setup (setup self).2 =
      (Ok tt,
       set_router (mkRouter (routes (router self) ++ added ++ added)) self).
Proof.
  intros Hok. exists (plan_of self).2.
  rewrite (setup_spec self) in Hok |- *. cbn [fst snd] in Hok |- *.
  split; [reflexivity|].
  rewrite setup_spec, plan_of_set_router, Hok. cbn.
  by rewrite app_assoc.
Qed.

Lemma setup_twice_registers_twice_witness :
  (setup plain_app).1 = Ok tt ∧
  ∃ added,
    routes (router (setup plain_app).2) = routes (router plain_app) ++ added ∧
    setup (setup plain_app).2 =
      (Ok tt,
       set_router (mkRouter (routes (router plain_app) ++ added ++ added))
         plain_app).
Proof.
  split; [reflexivity|].
  exact (setup_twice_registers_twice plain_app eq_refl).
Defined.

(** ** openapi, called again *)

(** X8: a call of [openapi] right after another returns the same document
    and leaves the object as the first call left it, also when the generated
    document is empty and is generated anew. *)
Theorem openapi_twice (ext : Collaborators) (self : FastAPI) :
  openapi ext (openapi ext self).2 = openapi ext self.
Proof.
  rewrite (openapi_spec ext self).
  destruct (truthy_dict (openapi_schema self)) eqn:Hcache; cbn [snd].
  - by rewrite openapi_spec, Hcache.
  - rewrite openapi_spec.
    destruct (truthy_dict (openapi_schema (set_openapi_schema _ self)));
      reflexivity.
Qed.

(** ** Several middleware *)




(** ** What a request leaves behind *)

Lemma cache_step_refl (ext : Collaborators) (self : FastAPI) :
  cache_step ext self self.
Proof. by left. Qed.

Lemma openapi_cache_step (ext : Collaborators) (self : FastAPI) :
  cache_step ext self (openapi ext self).2.
Proof.
  rewrite openapi_spec.
  destruct (truthy_dict (openapi_schema self)) eqn:Hcache; [by left|by right].
Qed.

Lemma call_route_cache_step (ext : Collaborators) (route : Route)
    (scope : Dict) (self : FastAPI) :
  cache_step ext self (call_route ext route scope self).2.
Proof.
  unfold call_route. destruct (endpoint route); step;
    try apply cache_step_refl.
  pose proof (openapi_cache_step ext self) as Hstep.
  by destruct (openapi ext self) as [[d|e] s].
Qed.

Lemma dispatch_cache_step (ext : Collaborators) (scope : Dict)
    (self : FastAPI) :
  cache_step ext self (dispatch ext scope self).2.
Proof.
  unfold dispatch. step.
  destruct (route_match ext (routes (router self)) scope).
  - apply call_route_cache_step.
  - apply cache_step_refl.
Qed.

Lemma run_cache_step (ext : Collaborators) (app : ASGIApp) :
  ∀ scope self, cache_step ext self (run ext app scope self).2.
Proof.
  induction app as [|m inner IH|inner IH d h]; intros scope self; cbn [run].
  - step. pose proof (dispatch_cache_step ext scope self) as Hstep.
    by destruct (dispatch ext scope self) as [[o|e] s].
  - unfold middleware_layer.
    destruct (dispatch_pre ext m scope) as [scope'|o];
      [|apply cache_step_refl].
    step. pose proof (IH scope' self) as Hstep.
    by destruct (run ext inner scope' self) as [[r|e] s].
  - step. pose proof (IH scope self) as Hstep.
    by destruct (run ext inner scope self) as [[r|e] s].
Qed.

Lemma call_cache_step (ext : Collaborators) (scope : Dict) (self : FastAPI) :
  cache_step ext self (__call__ ext scope self).2.
Proof.
  unfold __call__. step.
  destruct (middleware_stack self) as [chain|]; [|apply cache_step_refl].
  pose proof (run_cache_step ext chain
                (<["root_path" := AStr (root_path self)]> scope) self)
    as Hstep.
  by destruct (run ext chain _ self) as [[r|e] s].
Qed.

(** X11: a request changes nothing in the application but the schema
    cache: after [__call__] the object is as before, or its falsy cache has
    been filled with the document generated from the object as it was.  With
    a non-empty document cached, serving is read-only. *)
Theorem call_only_fills_cache (ext : Collaborators) (scope : Dict)
    (self : FastAPI) :
  let self' := (__call__ ext scope self).2 in
  (self' = self
   ∨ (truthy_dict (openapi_schema self) = false ∧
      self' =
        set_openapi_schema (Some (get_openapi ext (openapi_args self))) self))
  ∧ (truthy_dict (openapi_schema self) = true → self' = self).
Proof.
  cbn zeta. pose proof (call_cache_step ext scope self) as Hstep.
  split; [exact Hstep|].
  intros Hcache. destruct Hstep as [Hsame|[Hfalsy _]]; [done|congruence].
Qed.

(** X12: the entry point writes one key of the scope: every other entry
    reaches the chain as it came in, and a scope that already carries the
    configured root path is passed on unchanged. *)
Theorem call_keeps_other_scope_entries (ext : Collaborators) (self : FastAPI)
    (chain : ASGIApp) (scope : Dict) :
  middleware_stack self = Some chain →
  ∃ served self',
    __call__ ext scope self = (Ok served, self') ∧
    (∀ k, k ≠ "root_path" → served_scope served !! k = scope !! k) ∧
    (scope !! "root_path" = Some (AStr (root_path self)) →
     served_scope served = scope).
Proof.
  intros Hstack.
  destruct (call_runs_chain ext self chain scope Hstack)
    as (r & self' & _ & Hcall).
  eexists _, self'. split; [exact Hcall|]. cbn [served_scope]. split.
  - intros k Hk. by rewrite lookup_insert_ne.
  - intros Hroot. by apply insert_id.
Qed.

Lemma call_keeps_other_scope_entries_witness :
  ∃ served self',
    __call__ failing_ext proxied_scope served_app = (Ok served, self') ∧
    (∀ k, k ≠ "root_path" →
          served_scope served !! k = proxied_scope !! k) ∧
    (proxied_scope !! "root_path" = Some (AStr (root_path served_app)) →
     served_scope served = proxied_scope).
Proof.
  exact (call_keeps_other_scope_entries failing_ext served_app _
           proxied_scope eq_refl).
Defined.

Lemma call_only_fills_cache_witness :
  let cached := set_openapi_schema (Some {[ "openapi" := AStr "3.1.0" ]})
                  served_app in
  truthy_dict (openapi_schema cached) = true ∧
  (__call__ failing_ext proxied_scope cached).2 = cached.
Proof.
  cbn zeta. split; [reflexivity|].
  apply (call_only_fills_cache failing_ext proxied_scope). reflexivity.
Defined.

(** ** Any sequence of calls *)

Section Calls.

Variable ext : Collaborators.
Variable rm : RouterMethods.

(** What one call can do to the four attributes that the methods write. *)
Lemma perform_effect (op : Op) (self : FastAPI) :
  (∃ r c,
     perform ext rm op self = set_router r (set_openapi_schema c self) ∧
     (truthy_dict (openapi_schema self) = true → c = openapi_schema self) ∧
     (registers_here op = true →
      routes (router self) `prefix_of` routes r))
  ∨ (∃ cl o s,
       op = OpAddMiddleware cl o ∧
       perform ext rm op self =
         set_middleware_stack s
           (set_user_middleware (mkMiddleware cl o :: user_middleware self)
              self) ∧
       ∀ h, exception_handlers self = Some h →
            s = Some (ServerErrorMiddleware
                        (nest (mkMiddleware cl o :: user_middleware self))
                        (_debug self) h)).
Proof.
  destruct op as [| |inc opts|p e ms n i|p e n|cl o|scope]; cbn [perform].
  - left. rewrite setup_spec. cbn [snd].
    exists (mkRouter (routes (router self) ++ (plan_of self).2)),
      (openapi_schema self).
    split; [by destruct self|]. split; [done|].
    intros _. by apply prefix_app_r.
  - left. exists (router self).
    destruct (openapi_cache_step ext self) as [->|[Hfalsy ->]].
    + exists (openapi_schema self). split; [by destruct self|]. done.
    + exists (Some (get_openapi ext (openapi_args self))).
      split; [by destruct self|]. split; [congruence|done].
  - left. eexists _, (openapi_schema self).
    split; [by destruct self|]. done.
  - left. eexists _, (openapi_schema self).
    split; [by destruct self|]. split; [done|].
    intros _. by apply prefix_app_r.
  - left. eexists _, (openapi_schema self).
    split; [by destruct self|]. done.
  - right. exists cl, o.
    destruct (exception_handlers self) as [h|] eqn:Hh.
    + rewrite (add_middleware_eq _ _ _ h Hh). cbn [snd].
      eexists. split; [done|]. split; [reflexivity|].
      by intros h' [= <-].
    + exists (middleware_stack self). split; [done|]. split; [|done].
      unfold add_middleware, build_middleware_stack, getattr, modify, read,
        bind, ret.
      cbn. rewrite Hh. cbn. by destruct self.
  - left. exists (router self).
    destruct (call_cache_step ext scope self) as [->|[Hfalsy ->]].
    + exists (openapi_schema self). split; [by destruct self|]. done.
    + exists (Some (get_openapi ext (openapi_args self))).
      split; [by destruct self|]. split; [congruence|done].
Qed.

Lemma perform_settings (op : Op) (self : FastAPI) :
  settings (perform ext rm op self) = settings self.
Proof.
  destruct (perform_effect op self)
    as [(r & c & -> & _)|(cl & o & s & _ & -> & _)]; reflexivity.
Qed.

Lemma perform_all_settings (ops : list Op) :
  ∀ self, settings (perform_all ext rm ops self) = settings self.
Proof.
  induction ops as [|op ops IH]; intros self; [reflexivity|].
  cbn. unfold perform_all in IH. by rewrite IH, perform_settings.
Qed.

End Calls.

(** X13: no sequence of calls of the public methods on an existing object
    changes what the constructor fixed: the debug flag, the handler map, the
    root path, the four documentation paths and the metadata are as before;
    only the router, the schema cache, the middleware sequence and the
    stored chain can differ. *)
Theorem calls_keep_settings (ext : Collaborators) (rm : RouterMethods)
    (ops : list Op) (self : FastAPI) :
  let self' := perform_all ext rm ops self in
  _debug self' = _debug self ∧
  state self' = state self ∧
  openapi_version self' = openapi_version self ∧
  openapi_url self' = openapi_url self ∧
  openapi_tags self' = openapi_tags self ∧
  servers self' = servers self ∧
  docs_url self' = docs_url self ∧
  redoc_url self' = redoc_url self ∧
  swagger_ui_oauth2_redirect_url self' = swagger_ui_oauth2_redirect_url self ∧
  swagger_ui_init_oauth self' = swagger_ui_init_oauth self ∧
  title self' = title self ∧
  description self' = description self ∧
  version self' = version self ∧
  terms_of_service self' = terms_of_service self ∧
  contact self' = contact self ∧
  license_info self' = license_info self ∧
  openapi_prefix self' = openapi_prefix self ∧
  root_path self' = root_path self ∧
  root_path_in_servers self' = root_path_in_servers self ∧
  swagger_ui_parameters self' = swagger_ui_parameters self ∧
  extra self' = extra self ∧
  dependency_overrides self' = dependency_overrides self ∧
  exception_handlers self' = exception_handlers self.
Proof.
  cbn zeta. pose proof (perform_all_settings ext rm ops self) as Hsame.
  repeat split;
    match goal with
    | |- ?f _ = ?f _ => exact (f_equal f Hsame)
    end.
Qed.

(** X14: nothing resets the schema cache: once it holds a non-empty
    document, it holds the same document after any sequence of calls of the
    public methods, registrations and router inclusions among them. *)
Theorem calls_keep_cache (ext : Collaborators) (rm : RouterMethods)
    (ops : list Op) :
  ∀ self,
    truthy_dict (openapi_schema self) = true →
    openapi_schema (perform_all ext rm ops self) = openapi_schema self.
Proof.
  induction ops as [|op ops IH]; intros self Hcache; [reflexivity|].
  cbn. unfold perform_all in IH.
  assert (Hop : openapi_schema (perform ext rm op self) = openapi_schema self).
  { destruct (perform_effect ext rm op self)
      as [(r & c & -> & Hc & _)|(cl & o & s & _ & -> & _)]; [|reflexivity].
    cbn. by apply Hc. }
  rewrite IH; [exact Hop | by rewrite Hop].
Qed.

(** X15: routes are only ever appended by this class: after any sequence of
    calls other than the two that hand the registration to the router, the
    routes that were there are still there, in order, at the front. *)
Theorem calls_keep_routes (ext : Collaborators) (rm : RouterMethods)
    (ops : list Op) :
  ∀ self,
    forallb registers_here ops = true →
    routes (router self)
      `prefix_of` routes (router (perform_all ext rm ops self)).
Proof.
  induction ops as [|op ops IH]; intros self Hops; [done|].
  cbn in Hops. apply andb_true_iff in Hops as [Hop Hops].
  cbn. unfold perform_all in IH.
  etrans; [|by apply IH].
  destruct (perform_effect ext rm op self)
    as [(r & c & -> & _ & Hr)|(cl & o & s & _ & -> & _)]; [|done].
  cbn. by apply Hr.
Qed.

(** X16: the middleware sequence only grows at the front: after any
    sequence of calls the old sequence is still there, in order, at the
    back. *)
Theorem calls_keep_middleware (ext : Collaborators) (rm : RouterMethods)
    (ops : list Op) :
  ∀ self,
    user_middleware self
      `suffix_of` user_middleware (perform_all ext rm ops self).
Proof.
  induction ops as [|op ops IH]; intros self; [done|].
  cbn. unfold perform_all in IH.
  etrans; [|by apply IH].
  destruct (perform_effect ext rm op self)
    as [(r & c & -> & _)|(cl & o & s & _ & -> & _)]; [done|].
  cbn. by apply suffix_cons_r.
Qed.

(** X17: only [add_middleware] touches the chain: after any sequence of
    calls of the other public methods, registrations, inclusions, schema
    reads and requests among them, the stored chain and the middleware
    sequence are the ones that were there, so a route registered later is
    reached through the chain that was built before. *)
Theorem calls_without_add_middleware_keep_chain (ext : Collaborators)
    (rm : RouterMethods) (ops : list Op) :
  ∀ self,
    forallb (λ op, negb (rebuilds op)) ops = true →
    middleware_stack (perform_all ext rm ops self) = middleware_stack self ∧
    user_middleware (perform_all ext rm ops self) = user_middleware self.
Proof.
  induction ops as [|op ops IH]; intros self Hops; [done|].
  cbn in Hops. apply andb_true_iff in Hops as [Hop Hops].
  cbn. unfold perform_all in IH.
  destruct (IH (perform ext rm op self) Hops) as [-> ->].
  destruct (perform_effect ext rm op self)
    as [(r & c & -> & _)|(cl & o & s & -> & _)]; [done|discriminate].
Qed.

Lemma calls_keep_cache_witness :
  truthy_dict (openapi_schema cached_app) = true ∧
  openapi_schema
    (perform_all failing_ext inert_router_methods sample_calls_with_inclusion
       cached_app)
  = Some {[ "openapi" := AStr "3.1.0" ]}.
Proof.
  split; [reflexivity|].
  exact (calls_keep_cache failing_ext inert_router_methods
           sample_calls_with_inclusion cached_app eq_refl).
Defined.

Lemma calls_keep_routes_witness :
  forallb registers_here sample_calls = true ∧
  [items_route]
    `prefix_of` routes
                  (router (perform_all failing_ext inert_router_methods
                             sample_calls items_app)).
Proof.
  split; [reflexivity|].
  exact (calls_keep_routes failing_ext inert_router_methods sample_calls
           items_app eq_refl).
Defined.

Lemma calls_without_add_middleware_keep_chain_witness :
  forallb (λ op, negb (rebuilds op)) sample_registrations = true ∧
  middleware_stack
    (perform_all failing_ext inert_router_methods sample_registrations
       served_app)
  = Some (ServerErrorMiddleware (nest [cors; gzip]) false ∅) ∧
  user_middleware
    (perform_all failing_ext inert_router_methods sample_registrations
       served_app)
  = [cors; gzip].
Proof.
  split; [reflexivity|].
  exact (calls_without_add_middleware_keep_chain failing_ext
           inert_router_methods sample_registrations served_app eq_refl).
Defined.

(** The sample calls, run. *)
Example sample_calls_run :
  let self' :=
    perform_all failing_ext inert_router_methods sample_calls items_app in
  path <$> routes (router self') =
    ["/items"; "/users"; "/openapi.json"; "/docs"; "/docs/oauth2-redirect";
     "/redoc"] ∧
  user_middleware self' = [gzip] ∧
  middleware_stack self' =
    Some (ServerErrorMiddleware (MiddlewareApp gzip RouterRef) false ∅).
Proof. by repeat split. Qed.
